(** * Type narrowing in [calcAge]: a shallow embedding of [src/index.ts]

    The program dispatches on the runtime shape of its argument
    ([typeof], [instanceof], a zod schema) and calls two external
    functions, [parse] and [diffInYears], that are only declared.  The
    embedding keeps the three layers apart:

    - JavaScript values and the runtime tests the code performs on them;
    - the zod schema [personSchema] and the type guard [isPerson];
    - [calcAge] as a program over the two external calls, and an
      interpreter that runs such a program against any implementation
      of the externals, recording every call. *)

From Stdlib Require Import ZArith String List Bool Ascii Lia PrimFloat Uint63.
Import ListNotations.
Local Open Scope string_scope.
Local Open Scope Z_scope.

#[local] Set Warnings "-register-all".

(** ** JavaScript values *)

(** The time value of a [Date] object: milliseconds since the epoch, or
    NaN (an "Invalid Date", as produced by [new Date(NaN)]). *)
Inductive JsDate : Type :=
| InvalidDate
| Instant (ms : Z).

(** Data values: primitives, [Date] objects, arrays and plain objects
    with their own properties in insertion order.  Only a plain object
    carries named properties here: a [VDate] or a [VArray] stands for a
    [Date] or an array without named properties of its own.  Functions,
    symbols, [Map], [Set], promises, accessors and user-defined
    prototypes are not represented. *)
Inductive JsValue : Type :=
| VUndefined
| VNull
| VBoolean (b : bool)
| VNumber (n : float)
| VBigInt (z : Z)
| VString (s : string)
| VDate (d : JsDate)
| VArray (items : list JsValue)
| VObject (props : list (string * JsValue)).

(** [typeof value] *)
Definition typeof (value : JsValue) : string :=
  match value with
  | VUndefined => "undefined"
  | VNull => "object"
  | VBoolean _ => "boolean"
  | VNumber _ => "number"
  | VBigInt _ => "bigint"
  | VString _ => "string"
  | VDate _ | VArray _ | VObject _ => "object"
  end.

(** [value === undefined] and [value === null] *)
Definition is_undefined (value : JsValue) : bool :=
  match value with VUndefined => true | _ => false end.

Definition is_null (value : JsValue) : bool :=
  match value with VNull => true | _ => false end.

(** [value instanceof Date] *)
Definition instanceof_Date (value : JsValue) : bool :=
  match value with VDate _ => true | _ => false end.

Fixpoint lookup (key : string) (props : list (string * JsValue)) : option JsValue :=
  match props with
  | [] => None
  | (k, v) :: rest => if String.eqb key k then Some v else lookup key rest
  end.

(** [key in value] for a value that is an object.  Only own, named
    properties are looked at; the built-in prototypes (and the indices
    and [length] of arrays) define no property called [birthday], the one
    key this program asks for.  On the values represented here only a
    plain object can answer true. *)
Definition has_property (key : string) (value : JsValue) : bool :=
  match value with
  | VObject props => match lookup key props with Some _ => true | None => false end
  | _ => false
  end.

(** [value[key]] for a value that is neither [null] nor [undefined]: a
    missing property reads as [undefined]. *)
Definition prop (value : JsValue) (key : string) : JsValue :=
  match value with
  | VObject props => match lookup key props with Some v => v | None => VUndefined end
  | _ => VUndefined
  end.

(** ** The zod schema *)

Module Zod.

Inductive ZodParsedType : Type :=
| string_ | nan | number | boolean | bigint | undefined | null | array | date | object.

(** zod's [getParsedType], on the values represented here. *)
Definition getParsedType (data : JsValue) : ZodParsedType :=
  match data with
  | VUndefined => undefined
  | VString _ => string_
  | VNumber n => if PrimFloat.is_nan n then nan else number
  | VBoolean _ => boolean
  | VBigInt _ => bigint
  | VArray _ => array
  | VNull => null
  | VDate _ => date
  | VObject _ => object
  end.

(** The schemas this program builds: [z.date()] and [z.object(shape)]. *)
Inductive ZodType : Type :=
| ZodDate
| ZodObject (shape : list (string * ZodType)).

Inductive ZodIssue : Type :=
| invalid_type (expected received : ZodParsedType) (path : list string)
| invalid_date (path : list string).

Inductive ParseReturn : Type :=
| OK (value : JsValue)
| INVALID (issues : list ZodIssue).

(** Collecting the parsed fields of an object: the fields parsed so
    far when every one is valid, the issues of all fields otherwise. *)
Definition mergeField (key : string) (field : ParseReturn)
           (rest : list (string * JsValue) + list ZodIssue)
  : list (string * JsValue) + list ZodIssue :=
  match field, rest with
  | OK v, inl fields => inl ((key, v) :: fields)
  | INVALID issues, inl _ => inr issues
  | OK _, inr issues => inr issues
  | INVALID issues, inr more => inr (issues ++ more)%list
  end.

(** Modelled from the spec: the zod library is imported from its npm
    package and is not among the sources.  The spec only says that the
    schema check accepts an object whose [birthday] field is actually a
    date instant; the definition follows the library's [ZodDate._parse]
    (the input must be a [Date] and [isNaN(input.getTime())] must be
    false) and [ZodObject._parse] with the default handling of unknown
    keys (the input must be of parsed type [object]; each key of the
    shape is read with [data[key]] and parsed; other keys are dropped). *)
Fixpoint _parse (schema : ZodType) (path : list string) (data : JsValue) : ParseReturn :=
  match schema with
  | ZodDate =>
      match getParsedType data, data with
      | date, VDate (Instant ms) => OK (VDate (Instant ms))
      | date, _ => INVALID [invalid_date path]
      | received, _ => INVALID [invalid_type date received path]
      end
  | ZodObject shape =>
      match getParsedType data with
      | object =>
          match
            (fix fields (keys : list (string * ZodType)) :=
               match keys with
               | [] => inl []
               | (key, validator) :: rest =>
                   mergeField key (_parse validator (path ++ [key]) (prop data key))
                              (fields rest)
               end) shape
          with
          | inl parsed => OK (VObject parsed)
          | inr issues => INVALID issues
          end
      | received => INVALID [invalid_type object received path]
      end
  end.

Inductive SafeParseReturnType : Type :=
| SafeParseSuccess (data : JsValue)
| SafeParseError (error : list ZodIssue).

Definition success (result : SafeParseReturnType) : bool :=
  match result with
  | SafeParseSuccess _ => true
  | SafeParseError _ => false
  end.

(** [schema.safeParse(data)]: the outcome is returned, never thrown. *)
Definition safeParse (schema : ZodType) (data : JsValue) : SafeParseReturnType :=
  match _parse schema [] data with
  | OK value => SafeParseSuccess value
  | INVALID issues => SafeParseError issues
  end.

End Zod.

(** [const personSchema = z.object({ birthday: z.date() })] *)
Definition personSchema : Zod.ZodType :=
  Zod.ZodObject [("birthday", Zod.ZodDate)].

(** [function isPerson(value: unknown): value is Person] *)
Definition isPerson (value : JsValue) : bool :=
  Zod.success (Zod.safeParse personSchema value).

(** ** Programs over the external functions *)

(** [new Error(message)] and the [TypeError] of a property read on
    [null] or [undefined]. *)
Inductive JsError : Type :=
| Error (message : string)
| TypeError (message : string).

(** A computation of the module: it returns, throws, or calls one of the
    two declared functions and goes on with the answer.  There is no
    node for catching an exception, for the source has no [try]. *)
Inductive Prog (A : Type) : Type :=
| Ret (a : A)
| Throw (e : JsError)
| CallParse (value : JsValue) (k : JsDate -> Prog A)
| CallDiffInYears (value : JsValue) (k : float -> Prog A).

Arguments Ret {A} a.
Arguments Throw {A} e.
Arguments CallParse {A} value k.
Arguments CallDiffInYears {A} value k.

Fixpoint bind {A B : Type} (m : Prog A) (f : A -> Prog B) : Prog B :=
  match m with
  | Ret a => f a
  | Throw e => Throw e
  | CallParse value k => CallParse value (fun d => bind (k d) f)
  | CallDiffInYears value k => CallDiffInYears value (fun n => bind (k n) f)
  end.

Declare Scope prog_scope.
Delimit Scope prog_scope with prog.
Notation "x <- m ;; k" := (bind m (fun x => k))
  (at level 61, m at next level, right associativity) : prog_scope.
Notation "m ;; k" := (bind m (fun _ => k))
  (at level 61, right associativity) : prog_scope.
Local Open Scope prog_scope.

(** [declare function parse(value: string): Date]: the declared result
    type is trusted, the argument is whatever the caller passes. *)
Definition parse (value : JsValue) : Prog JsDate :=
  CallParse value Ret.

(** [declare function diffInYears(value: Date): number] *)
Definition diffInYears (value : JsValue) : Prog float :=
  CallDiffInYears value Ret.

Definition typeof_absent (value : JsValue) : string :=
  if is_null value then "null" else "undefined".

(** [value.key]: reading a property of [null] or [undefined] throws. *)
Definition member (value : JsValue) (key : string) : Prog JsValue :=
  if is_undefined value || is_null value
  then Throw (TypeError ("Cannot read properties of " ++ typeof_absent value
                         ++ " (reading '" ++ key ++ "')"))
  else Ret (prop value key).

(** [function assertNonNullable<T>(value: T): asserts value is NonNullable<T>] *)
Definition assertNonNullable (value : JsValue) : Prog unit :=
  if is_undefined value || is_null value
  then Throw (Error "undefined or null are not allowed")
  else Ret tt.

(** [function calcAge(input: Date | null | undefined | string | Person | PersonJson): number] *)
Definition calcAge (input : JsValue) : Prog float :=
  assertNonNullable input ;;
  if String.eqb (typeof input) "string" then
    d <- parse input ;;
    diffInYears (VDate d)
  else if instanceof_Date input then
    diffInYears input
  else if isPerson input then
    birthday <- member input "birthday" ;;
    diffInYears birthday
  else
    birthday <- member input "birthday" ;;
    d <- parse birthday ;;
    diffInYears (VDate d).

(** ** Running a program against the external functions *)

(** The two declared functions, as the environment provides them.  They
    may keep state of their own (a clock, a cache, a log): [World] is
    that state, threaded through every call.  [DateParser] may fail with
    a [ParseError]; [DateDiff] answers with a number. *)
Class Externals (World ParseError : Type) : Type := {
  DateParser : JsValue -> World -> (ParseError + JsDate) * World;
  DateDiff : JsValue -> World -> float * World
}.

(** One call of an external function, with its argument and its answer. *)
Inductive Event (ParseError : Type) : Type :=
| EvParse (argument : JsValue) (answer : ParseError + JsDate)
| EvDiff (argument : JsValue) (answer : float).

Arguments EvParse {ParseError} argument answer.
Arguments EvDiff {ParseError} argument answer.

(** How a call ends: with a value, with an error thrown by the module
    itself, or with the error an external function raised. *)
Inductive Outcome (ParseError A : Type) : Type :=
| Returned (a : A)
| Threw (e : JsError)
| Propagated (e : ParseError).

Arguments Returned {ParseError A} a.
Arguments Threw {ParseError A} e.
Arguments Propagated {ParseError A} e.

Record Run (World ParseError A : Type) : Type := mkRun {
  outcome : Outcome ParseError A;
  calls : list (Event ParseError);
  final : World
}.

Arguments mkRun {World ParseError A} outcome calls final.
Arguments outcome {World ParseError A} r.
Arguments calls {World ParseError A} r.
Arguments final {World ParseError A} r.

Section Interpreter.

Context {World ParseError : Type} {ext : Externals World ParseError}.

(** Prefixing the record of a run with the call that came before it. *)
Definition after {A : Type} (ev : Event ParseError) (r : Run World ParseError A)
  : Run World ParseError A :=
  mkRun (outcome r) (ev :: calls r) (final r).

Fixpoint run {A : Type} (p : Prog A) (w : World) : Run World ParseError A :=
  match p with
  | Ret a => mkRun (Returned a) [] w
  | Throw e => mkRun (Threw e) [] w
  | CallParse value k =>
      let (answer, w1) := DateParser value w in
      match answer with
      | inl e => mkRun (Propagated e) [EvParse value answer] w1
      | inr d => after (EvParse value answer) (run (k d) w1)
      end
  | CallDiffInYears value k =>
      let (n, w1) := DateDiff value w in
      after (EvDiff value n) (run (k n) w1)
  end.

(** The state the externals are left in by a sequence of calls made
    from state [w]. *)
Fixpoint replay (evs : list (Event ParseError)) (w : World) : World :=
  match evs with
  | [] => w
  | EvParse value _ :: rest => replay rest (snd (DateParser value w))
  | EvDiff value _ :: rest => replay rest (snd (DateDiff value w))
  end.

(** The answers of the externals do not depend on their own state: the
    same parser behaviour and the same current-time reference at every
    call. *)
Definition stable_answers : Prop :=
  (forall value w w', fst (DateParser value w) = fst (DateParser value w')) /\
  (forall value w w', fst (DateDiff value w) = fst (DateDiff value w')).

End Interpreter.

(** Which external a call went to. *)
Definition is_parse_call {ParseError : Type} (ev : Event ParseError) : bool :=
  match ev with EvParse _ _ => true | EvDiff _ _ => false end.

(** ** The shapes the specification names *)

(** A TemporalValue is a point in time: a [Date] that holds an instant.
    An Invalid Date is a [Date] object but no point in time. *)
Definition isTemporalValue (value : JsValue) : bool :=
  match value with
  | VDate (Instant _) => true
  | _ => false
  end.

(** A PersonRecord in the specification's words: a non-null structured
    object possessing a [birthday] attribute whose runtime representation
    is a genuine TemporalValue. *)
Definition isPersonRecord (value : JsValue) : bool :=
  String.eqb (typeof value) "object"
  && negb (is_null value)
  && has_property "birthday" value
  && isTemporalValue (prop value "birthday").

(** A PersonJsonRecord: a structured object whose [birthday] attribute is
    a text. *)
Definition isPersonJsonRecord (value : JsValue) : bool :=
  String.eqb (typeof value) "object"
  && negb (is_null value)
  && has_property "birthday" value
  && String.eqb (typeof (prop value "birthday")) "string".

(** The hand-written type guard of the article (README, section 9.1):
    [typeof value === "object" && value !== null && "birthday" in value
     && value.birthday instanceof Date]. *)
Definition isPerson_manual (value : JsValue) : bool :=
  String.eqb (typeof value) "object"
  && negb (is_null value)
  && has_property "birthday" value
  && instanceof_Date (prop value "birthday").

(** Membership in the declared parameter type of [calcAge],
    [Date | null | undefined | string | Person | PersonJson], where
    [Person] is [{ birthday: Date }] and [PersonJson] is
    [{ birthday: string }].  The static type [Date] does not tell a valid
    date from an invalid one. *)
Definition in_declared_union (value : JsValue) : bool :=
  instanceof_Date value
  || is_null value
  || is_undefined value
  || String.eqb (typeof value) "string"
  || isPerson_manual value
  || isPersonJsonRecord value.

(** ** A reference implementation of the externals *)

Module Demo.

(** Days since 1970-01-01 of a date of the proleptic Gregorian calendar. *)
Definition days_from_civil (y m d : Z) : Z :=
  let y' := if m <=? 2 then y - 1 else y in
  let era := y' / 400 in
  let yoe := y' - era * 400 in
  let doy := (153 * (if 2 <? m then m - 3 else m + 9) + 2) / 5 + d - 1 in
  let doe := yoe * 365 + yoe / 4 - yoe / 100 + doy in
  era * 146097 + doe - 719468.

(** Year, month and day of a number of days since 1970-01-01. *)
Definition civil_from_days (z : Z) : Z * Z * Z :=
  let z' := z + 719468 in
  let era := z' / 146097 in
  let doe := z' - era * 146097 in
  let yoe := (doe - doe / 1460 + doe / 36524 - doe / 146096) / 365 in
  let doy := doe - (365 * yoe + yoe / 4 - yoe / 100) in
  let mp := (5 * doy + 2) / 153 in
  let d := doy - (153 * mp + 2) / 5 + 1 in
  let m := if mp <? 10 then mp + 3 else mp - 9 in
  ((if m <=? 2 then yoe + era * 400 + 1 else yoe + era * 400), m, d).

Definition is_leap (y : Z) : bool :=
  (y mod 4 =? 0) && (negb (y mod 100 =? 0) || (y mod 400 =? 0)).

Definition days_in_month (y m : Z) : Z :=
  if m =? 2 then (if is_leap y then 29 else 28)
  else if (m =? 4) || (m =? 6) || (m =? 9) || (m =? 11) then 30
  else 31.

Definition digit (c : ascii) : option Z :=
  let n := Z.of_nat (nat_of_ascii c) in
  if (48 <=? n) && (n <=? 57) then Some (n - 48) else None.

Fixpoint digits (acc : Z) (cs : list ascii) : option Z :=
  match cs with
  | [] => Some acc
  | c :: rest =>
      match digit c with
      | Some d => digits (10 * acc + d) rest
      | None => None
      end
  end.

Definition ms_per_day : Z := 86400000.

(** A parser for the text form [YYYY-MM-DD] (midnight UTC); any other
    text has no parse. *)
Definition parseISO (text : string) : option JsDate :=
  match list_ascii_of_string text with
  | [y1; y2; y3; y4; s1; m1; m2; s2; d1; d2] =>
      if Ascii.eqb s1 "-" && Ascii.eqb s2 "-" then
        match digits 0 [y1; y2; y3; y4], digits 0 [m1; m2], digits 0 [d1; d2] with
        | Some y, Some m, Some d =>
            if (1 <=? m) && (m <=? 12) && (1 <=? d) && (d <=? days_in_month y m)
            then Some (Instant (days_from_civil y m d * ms_per_day))
            else None
        | _, _, _ => None
        end
      else None
  | _ => None
  end.

(** Whole years elapsed from the instant [ms] to the instant [now]. *)
Definition wholeYears (now ms : Z) : Z :=
  let '(y1, m1, d1) := civil_from_days (ms / ms_per_day) in
  let '(y2, m2, d2) := civil_from_days (now / ms_per_day) in
  let t1 := ms mod ms_per_day in
  let t2 := now mod ms_per_day in
  let anniversary_pending :=
    (m2 <? m1) || ((m2 =? m1) && ((d2 <? d1) || ((d2 =? d1) && (t2 <? t1)))) in
  if anniversary_pending then y2 - y1 - 1 else y2 - y1.

Definition number_of_Z (z : Z) : float :=
  if z <? 0
  then PrimFloat.opp (PrimFloat.of_uint63 (Uint63.of_Z (- z)))
  else PrimFloat.of_uint63 (Uint63.of_Z z).

(** Modelled from the spec: [parse] and [diffInYears] are only declared
    in the source.  This instance is the one the specification's example
    asks for: a DateParser for textual dates that fails on malformed
    text, and a DateDiff that returns exact whole years up to a fixed
    current time [now].  The externals' own state is the number of calls
    they have served, which each call increments. *)
#[local] Instance externals (now : Z) : Externals nat string := {
  DateParser value served :=
    (match value with
     | VString text =>
         match parseISO text with
         | Some d => inr d
         | None => inl ("Invalid date: " ++ text)%string
         end
     | _ => inl "Invalid date"%string
     end, S served);
  DateDiff value served :=
    (match value with
     | VDate (Instant ms) => number_of_Z (wholeYears now ms)
     | _ => PrimFloat.nan
     end, S served)
}.

(** 2025-01-01T00:00:00Z *)
Definition now_2025_01_01 : Z := days_from_civil 2025 1 1 * ms_per_day.

End Demo.

(** ** The versions of [calcAge] the article builds up (README.md) *)

(** The value of a condition [if (value)]: the falsy values are [false],
    [0] (and [-0]), [0n], the empty string, [null], [NaN] and
    [undefined]. *)
Definition truthy (value : JsValue) : bool :=
  match value with
  | VUndefined | VNull => false
  | VBoolean b => b
  | VNumber n => negb (PrimFloat.eqb n 0%float || PrimFloat.is_nan n)
  | VBigInt z => negb (z =? 0)
  | VString s => negb (String.eqb s "")
  | VDate _ | VArray _ | VObject _ => true
  end.

(** Section 4, truthiness narrowing:
    [function calcAge(input: Date | null | undefined | string): number] *)
Module Truthiness.

Definition calcAge (input : JsValue) : Prog float :=
  if negb (truthy input) then
    Ret 0%float
  else if String.eqb (typeof input) "string" then
    d <- parse input ;;
    diffInYears (VDate d)
  else
    diffInYears input.

End Truthiness.

(** Section 5, [instanceof]:
    [function calcAge(input: Date | null | undefined | string | Person): number] *)
Module InstanceOf.

Definition calcAge (input : JsValue) : Prog float :=
  if negb (truthy input) then
    Ret 0%float
  else if String.eqb (typeof input) "string" then
    d <- parse input ;;
    diffInYears (VDate d)
  else if instanceof_Date input then
    diffInYears input
  else
    birthday <- member input "birthday" ;;
    diffInYears birthday.

End InstanceOf.

(** Section 8, first attempt, with [typeof input.birthday === "string"]. *)
Module TypeofBirthday.

Definition calcAge (input : JsValue) : Prog float :=
  if negb (truthy input) then
    Ret 0%float
  else if String.eqb (typeof input) "string" then
    d <- parse input ;;
    diffInYears (VDate d)
  else if instanceof_Date input then
    diffInYears input
  else
    birthday <- member input "birthday" ;;
    if String.eqb (typeof birthday) "string" then
      birthday <- member input "birthday" ;;
      d <- parse birthday ;;
      diffInYears (VDate d)
    else
      birthday <- member input "birthday" ;;
      diffInYears birthday.

End TypeofBirthday.

(** Section 8, with the type predicate
    [function isPerson(value: Person | PersonJson): value is Person]. *)
Module TypePredicate.

Definition isPerson (value : JsValue) : Prog bool :=
  birthday <- member value "birthday" ;;
  Ret (instanceof_Date birthday).

Definition calcAge (input : JsValue) : Prog float :=
  if negb (truthy input) then
    Ret 0%float
  else if String.eqb (typeof input) "string" then
    d <- parse input ;;
    diffInYears (VDate d)
  else if instanceof_Date input then
    diffInYears input
  else
    person <- isPerson input ;;
    if person then
      birthday <- member input "birthday" ;;
      diffInYears birthday
    else
      birthday <- member input "birthday" ;;
      d <- parse birthday ;;
      diffInYears (VDate d).

End TypePredicate.

(** The parameter type of the versions of sections 4 and 5 without
    [Person]: [Date | null | undefined | string]. *)
Definition in_date_or_text_union (value : JsValue) : bool :=
  instanceof_Date value
  || is_null value
  || is_undefined value
  || String.eqb (typeof value) "string".

(** * Properties *)

(** ** The definitions on concrete values *)

Example isPerson_date_birthday :
  isPerson (VObject [("birthday", VDate (Instant 946684800000))]) = true.
Proof. reflexivity. Qed.

Example isPerson_extra_keys :
  isPerson (VObject [("name", VString "Ada"); ("birthday", VDate (Instant 0))]) = true.
Proof. reflexivity. Qed.

Example isPerson_text_birthday :
  isPerson (VObject [("birthday", VString "2000-01-01")]) = false.
Proof. reflexivity. Qed.

Example isPerson_no_birthday :
  isPerson (VObject [("name", VString "Ada")]) = false.
Proof. reflexivity. Qed.

Example isPerson_primitives :
  map isPerson [VUndefined; VNull; VBoolean true; VNumber 25%float; VString "2000-01-01";
                VDate (Instant 0); VArray [VDate (Instant 0)]]
  = [false; false; false; false; false; false; false].
Proof. reflexivity. Qed.

Example safeParse_reports_missing_birthday :
  Zod.safeParse personSchema (VObject []) =
  Zod.SafeParseError [Zod.invalid_type Zod.date Zod.undefined ["birthday"]].
Proof. reflexivity. Qed.

Example safeParse_reports_invalid_date :
  Zod.safeParse personSchema (VObject [("birthday", VDate InvalidDate)]) =
  Zod.SafeParseError [Zod.invalid_date ["birthday"]].
Proof. reflexivity. Qed.

Example civil_round_trip :
  Demo.civil_from_days (Demo.days_from_civil 2024 2 29) = (2024, 2, 29).
Proof. reflexivity. Qed.

Example wholeYears_day_before_birthday :
  Demo.wholeYears Demo.now_2025_01_01 (Demo.days_from_civil 2000 1 2 * Demo.ms_per_day) = 24.
Proof. reflexivity. Qed.

Example calcAge_json_on_reference_externals :
  run (ext := Demo.externals Demo.now_2025_01_01)
      (calcAge (VObject [("birthday", VString "2000-01-02")])) 0%nat =
  mkRun (Returned 24%float)
        [EvParse (VString "2000-01-02") (inr (Instant 946771200000));
         EvDiff (VDate (Instant 946771200000)) 24%float]
        2%nat.
Proof. reflexivity. Qed.

Example calcAge_number_on_reference_externals :
  run (ext := Demo.externals Demo.now_2025_01_01) (calcAge (VNumber 7%float)) 0%nat =
  mkRun (Propagated "Invalid date") [EvParse VUndefined (inl "Invalid date")] 1%nat.
Proof. reflexivity. Qed.

(** ** The type guard *)

Lemma isPerson_isPersonRecord (value : JsValue) :
  isPerson value = isPersonRecord value.
Proof.
  destruct value as [ | | b | n | z | s | d | items | props]; try reflexivity.
  - unfold isPerson, Zod.safeParse; simpl. destruct (PrimFloat.is_nan n); reflexivity.
  - unfold isPerson, isPersonRecord, Zod.safeParse, has_property, prop; simpl.
    destruct (lookup "birthday" props) as [v | ]; [ | reflexivity].
    destruct v as [ | | b | n | z | s | [ | ms] | items | fields]; try reflexivity.
    simpl. destruct (PrimFloat.is_nan n); reflexivity.
Qed.

Lemma isPersonRecord_inv (value : JsValue) :
  isPersonRecord value = true ->
  exists props ms,
    value = VObject props /\ lookup "birthday" props = Some (VDate (Instant ms)).
Proof.
  destruct value as [ | | b | n | z | s | d | items | props]; try discriminate.
  unfold isPersonRecord, has_property, prop; simpl.
  destruct (lookup "birthday" props) as [v | ] eqn:E; [ | discriminate].
  destruct v as [ | | b | n | z | s | [ | ms] | items | fields]; try discriminate.
  intros _. exists props, ms. split; [reflexivity | exact E].
Qed.

Lemma prop_inv (value : JsValue) (key : string) (v : JsValue) :
  prop value key = v -> v <> VUndefined ->
  exists props, value = VObject props /\ lookup key props = Some v.
Proof.
  destruct value as [ | | b | n | z | s | d | items | props]; simpl;
    intros H Hv; try (symmetry in H; contradiction).
  exists props. split; [reflexivity | ].
  destruct (lookup key props) as [v' | ]; [congruence | symmetry in H; contradiction].
Qed.

(** ** The branches of [calcAge], as programs *)

Lemma calcAge_absent (input : JsValue) :
  is_undefined input || is_null input = true ->
  calcAge input = Throw (Error "undefined or null are not allowed").
Proof.
  destruct input; simpl; intros H; try discriminate H; reflexivity.
Qed.

Lemma calcAge_text (text : string) :
  calcAge (VString text) = (d <- parse (VString text) ;; diffInYears (VDate d)).
Proof. reflexivity. Qed.

Lemma calcAge_date (d : JsDate) :
  calcAge (VDate d) = diffInYears (VDate d).
Proof. reflexivity. Qed.

Lemma calcAge_object (props : list (string * JsValue)) :
  calcAge (VObject props) =
  if isPerson (VObject props)
  then diffInYears (prop (VObject props) "birthday")
  else (d <- parse (prop (VObject props) "birthday") ;; diffInYears (VDate d)).
Proof.
  unfold calcAge. simpl. destruct (isPerson (VObject props)); reflexivity.
Qed.

Lemma calcAge_person (input : JsValue) (ms : Z) :
  prop input "birthday" = VDate (Instant ms) ->
  isPerson input = true /\ calcAge input = diffInYears (VDate (Instant ms)).
Proof.
  intros H.
  destruct (prop_inv input "birthday" _ H) as [props [-> Hl]]; [discriminate | ].
  assert (Hp : isPerson (VObject props) = true).
  { rewrite isPerson_isPersonRecord.
    unfold isPersonRecord, has_property. rewrite H. simpl. rewrite Hl. reflexivity. }
  split; [exact Hp | ].
  rewrite calcAge_object, Hp, H. reflexivity.
Qed.

Lemma calcAge_fallback (input : JsValue) :
  is_undefined input || is_null input = false ->
  String.eqb (typeof input) "string" = false ->
  instanceof_Date input = false ->
  isPerson input = false ->
  calcAge input = (d <- parse (prop input "birthday") ;; diffInYears (VDate d)).
Proof.
  intros Habsent Hstring Hdate Hperson.
  unfold calcAge, assertNonNullable, member.
  rewrite Habsent. simpl. rewrite Hstring, Hdate, Hperson. reflexivity.
Qed.

(** Every call of [calcAge] is one of three programs: the guard's throw,
    one [diffInYears] on a date, or one [parse] followed by one
    [diffInYears] on its result. *)
Lemma calcAge_cases (input : JsValue) :
  (is_undefined input || is_null input = true /\
   calcAge input = Throw (Error "undefined or null are not allowed"))
  \/ (exists d, calcAge input = diffInYears (VDate d))
  \/ (exists value, calcAge input = (d <- parse value ;; diffInYears (VDate d))).
Proof.
  destruct input as [ | | b | n | z | s | d | items | props];
    try (left; split; reflexivity);
    try (right; left; eexists; reflexivity);
    try (right; right; eexists; reflexivity).
  - right; right. eexists. apply calcAge_fallback; try reflexivity.
    rewrite isPerson_isPersonRecord. reflexivity.
  - rewrite calcAge_object.
    destruct (isPerson (VObject props)) eqn:Hp.
    + rewrite isPerson_isPersonRecord in Hp.
      destruct (isPersonRecord_inv _ Hp) as [props' [ms [Heq Hl]]].
      injection Heq as <-.
      right; left. exists (Instant ms). simpl. rewrite Hl. reflexivity.
    + right; right. eexists; reflexivity.
Qed.

Section Runs.

Context {World ParseError : Type} {ext : Externals World ParseError}.

Lemma run_diffInYears (value : JsValue) (w : World) :
  run (diffInYears value) w =
  mkRun (Returned (fst (DateDiff value w)))
        [EvDiff value (fst (DateDiff value w))]
        (snd (DateDiff value w)).
Proof.
  simpl. destruct (DateDiff value w) as [n w1]. reflexivity.
Qed.

Lemma run_parse_diffInYears (value : JsValue) (w : World) :
  run (d <- parse value ;; diffInYears (VDate d)) w =
  match DateParser value w with
  | (inl e, w1) => mkRun (Propagated e) [EvParse value (inl e)] w1
  | (inr d, w1) => after (EvParse value (inr d)) (run (diffInYears (VDate d)) w1)
  end.
Proof.
  simpl. destruct (DateParser value w) as [[e | d] w1]; reflexivity.
Qed.

(** The interpreter touches the externals' state only through the calls
    it records. *)
Lemma run_final_replay {A : Type} (p : Prog A) :
  forall w, final (run p w) = replay (calls (run p w)) w.
Proof.
  induction p as [a | e | value k IH | value k IH]; intros w; simpl.
  - reflexivity.
  - reflexivity.
  - destruct (DateParser value w) as [[e | d] w1] eqn:E; simpl; rewrite E; simpl.
    + reflexivity.
    + apply IH.
  - destruct (DateDiff value w) as [n w1] eqn:E; simpl; rewrite E; simpl.
    apply IH.
Qed.

(** With externals whose answers do not depend on their state, the
    outcome and the calls of a program do not depend on it either. *)
Lemma run_stable {A : Type} (p : Prog A) :
  stable_answers ->
  forall w w',
    outcome (run p w) = outcome (run p w') /\ calls (run p w) = calls (run p w').
Proof.
  intros [Hparse Hdiff].
  induction p as [a | e | value k IH | value k IH]; intros w w'; simpl.
  - split; reflexivity.
  - split; reflexivity.
  - specialize (Hparse value w w').
    destruct (DateParser value w) as [r w1], (DateParser value w') as [r' w1'].
    simpl in Hparse. subst r'.
    destruct r as [e | d]; simpl.
    + split; reflexivity.
    + destruct (IH d w1 w1') as [Ho Hc]. rewrite Ho, Hc. split; reflexivity.
  - specialize (Hdiff value w w').
    destruct (DateDiff value w) as [n w1], (DateDiff value w') as [n' w1'].
    simpl in Hdiff. subst n'. simpl.
    destruct (IH n w1 w1') as [Ho Hc]. rewrite Ho, Hc. split; reflexivity.
Qed.

(** X1: whatever the input, [diffInYears] is only ever handed a [Date]:
    every recorded call of it in a run of [calcAge] has a [Date] as its
    argument. *)
Lemma calcAge_diffInYears_on_dates (input : JsValue) (w : World)
      (value : JsValue) (n : float) :
  In (EvDiff value n) (calls (run (calcAge input) w)) ->
  instanceof_Date value = true.
Proof.
  destruct (calcAge_cases input) as [[_ ->] | [[d ->] | [v ->]]].
  - intros [].
  - rewrite run_diffInYears. intros [H | []]. injection H as <- _. reflexivity.
  - rewrite run_parse_diffInYears.
    destruct (DateParser v w) as [[e | d] w1].
    + intros [H | []]. discriminate H.
    + rewrite run_diffInYears. intros [H | [H | []]]; [discriminate H | ].
      injection H as <- _. reflexivity.
Qed.

End Runs.

(** ** The type guard against the specification *)

(** C2: for every value, [isPerson] answers true exactly when the value
    is a non-null structured object that has a [birthday] attribute whose
    runtime representation is a genuine TemporalValue, that is a [Date]
    holding an instant (a string, any other encoding, and a [Date] whose
    time value is NaN are none).  For every other value it answers false,
    and either answer is returned by [safeParse] as a result, a success
    with the data or a failure with its issues: nothing is thrown. *)
Theorem isPerson_accepts_exactly_person_records (value : JsValue) :
  isPerson value = isPersonRecord value
  /\ (isPerson value = true <->
      exists props ms,
        value = VObject props /\ lookup "birthday" props = Some (VDate (Instant ms)))
  /\ (if isPerson value
      then exists data, Zod.safeParse personSchema value = Zod.SafeParseSuccess data
      else exists issues, Zod.safeParse personSchema value = Zod.SafeParseError issues).
Proof.
  split; [apply isPerson_isPersonRecord | split].
  - split.
    + rewrite isPerson_isPersonRecord. apply isPersonRecord_inv.
    + intros [props [ms [-> Hl]]].
      apply (calcAge_person (VObject props) ms). simpl. rewrite Hl. reflexivity.
  - unfold isPerson.
    destruct (Zod.safeParse personSchema value) as [data | issues]; simpl; eexists; reflexivity.
Qed.

(** The schema and the hand-written guard of the article differ on one
    kind of value only: an object whose [birthday] is an Invalid Date. *)
Lemma isPerson_vs_manual (value : JsValue) :
  isPerson value = isPerson_manual value && isTemporalValue (prop value "birthday").
Proof.
  rewrite isPerson_isPersonRecord. unfold isPersonRecord, isPerson_manual.
  destruct (prop value "birthday") as [ | | b | n | z | s | [ | ms] | items | fields];
    simpl; rewrite ?andb_false_r, ?andb_true_r; reflexivity.
Qed.

Section Behaviour.

Context {World ParseError : Type} {ext : Externals World ParseError}.

(** ** The absence guard *)

(** C1: for every input that is [null] or [undefined], the guard throws
    the error "undefined or null are not allowed"; the whole call is that
    throw, so no shape-specific logic runs, neither [diffInYears] nor
    [parse] is called, and the externals are left as they were. *)
Theorem calcAge_rejects_absent_input (input : JsValue) (w : World) :
  is_undefined input || is_null input = true ->
  assertNonNullable input = Throw (Error "undefined or null are not allowed")
  /\ calcAge input = Throw (Error "undefined or null are not allowed")
  /\ run (calcAge input) w =
     mkRun (Threw (Error "undefined or null are not allowed")) [] w.
Proof.
  intros H. split; [ | split].
  - unfold assertNonNullable. rewrite H. reflexivity.
  - apply calcAge_absent, H.
  - rewrite (calcAge_absent input H). reflexivity.
Qed.

(** C10: the empty string is present.  The guard returns normally on it,
    [calcAge] takes the textual branch, so the call never ends with an
    error of the module's own: it returns [diffInYears(parse(""))] when
    the parser answers, and an error can only be the one the parser
    raised on [""]. *)
Theorem calcAge_empty_string_is_present (w : World) :
  assertNonNullable (VString "") = Ret tt
  /\ calcAge (VString "") = (d <- parse (VString "") ;; diffInYears (VDate d))
  /\ (forall e, outcome (run (calcAge (VString "")) w) <> Threw e)
  /\ (forall d w1, DateParser (VString "") w = (inr d, w1) ->
        outcome (run (calcAge (VString "")) w) = Returned (fst (DateDiff (VDate d) w1)))
  /\ (forall e, outcome (run (calcAge (VString "")) w) = Propagated e ->
        fst (DateParser (VString "") w) = inl e).
Proof.
  split; [reflexivity | split; [reflexivity | ]].
  rewrite calcAge_text, run_parse_diffInYears.
  destruct (DateParser (VString "") w) as [[e | d] w1].
  - simpl. split; [discriminate | split].
    + intros d w2 H. discriminate H.
    + intros e' H. injection H as ->. reflexivity.
  - rewrite run_diffInYears. simpl.
    split; [discriminate | split].
    + intros d' w3 H. injection H as <- <-. reflexivity.
    + intros e H. discriminate H.
Qed.

(** ** The textual, instant and record branches *)

(** C5: for every [Date] input, [calcAge] is the single call of
    [diffInYears] on it: [parse] is not called.  Its result is the one
    the textual case gives for a text that parses to the same date: it
    is the result of the rest of the textual run, and, when the answers
    of the externals do not depend on their state (the same current-time
    reference), the two calls return the same number from any state. *)
Theorem calcAge_date_input (d : JsDate) (w : World) :
  calcAge (VDate d) = diffInYears (VDate d)
  /\ run (calcAge (VDate d)) w =
     mkRun (Returned (fst (DateDiff (VDate d) w)))
           [EvDiff (VDate d) (fst (DateDiff (VDate d) w))]
           (snd (DateDiff (VDate d) w))
  /\ existsb is_parse_call (calls (run (calcAge (VDate d)) w)) = false
  /\ (forall text w0,
        DateParser (VString text) w0 = (inr d, w) ->
        outcome (run (calcAge (VString text)) w0) = outcome (run (calcAge (VDate d)) w))
  /\ (stable_answers ->
      forall text w0,
        fst (DateParser (VString text) w0) = inr d ->
        outcome (run (calcAge (VString text)) w0) = outcome (run (calcAge (VDate d)) w)).
Proof.
  rewrite calcAge_date, run_diffInYears.
  split; [reflexivity | split; [reflexivity | split; [reflexivity | split]]].
  - intros text w0 H.
    rewrite calcAge_text, run_parse_diffInYears, H, run_diffInYears. reflexivity.
  - intros Hstable text w0 H.
    rewrite calcAge_text, run_parse_diffInYears.
    destruct (DateParser (VString text) w0) as [r w1]. simpl in H. subst r.
    rewrite run_diffInYears. simpl. f_equal. apply Hstable.
Qed.

(** C6: for every PersonRecord, an object whose [birthday] is a date
    instant, [isPerson] answers true and [calcAge] is the single call of
    [diffInYears] on that attribute: the same program, hence the same
    run and the same number, as for the date itself. *)
Theorem calcAge_person_record (input : JsValue) (ms : Z) (w : World) :
  prop input "birthday" = VDate (Instant ms) ->
  isPersonRecord input = true
  /\ isPerson input = true
  /\ calcAge input = diffInYears (VDate (Instant ms))
  /\ run (calcAge input) w = run (calcAge (VDate (Instant ms))) w
  /\ outcome (run (calcAge input) w) = Returned (fst (DateDiff (VDate (Instant ms)) w)).
Proof.
  intros H. destruct (calcAge_person input ms H) as [Hp Hc].
  split; [rewrite <- isPerson_isPersonRecord; exact Hp | ].
  split; [exact Hp | split; [exact Hc | ]].
  rewrite Hc, calcAge_date, run_diffInYears. split; reflexivity.
Qed.

(** C3: for every PersonJsonRecord, an object whose [birthday] is a
    text, [isPerson] answers false and [calcAge] takes the last branch:
    it calls [parse] on the text and then [diffInYears] on the parsed
    date.  This is the program of the textual branch for the same text,
    so both have the same run; and when the text parses to a date, the
    number returned is the one the date itself gives, and the one the
    PersonRecord with that date gives. *)
Theorem calcAge_person_json (input : JsValue) (text : string) (w : World) :
  prop input "birthday" = VString text ->
  isPersonJsonRecord input = true
  /\ isPerson input = false
  /\ calcAge input = (d <- parse (VString text) ;; diffInYears (VDate d))
  /\ run (calcAge input) w = run (calcAge (VString text)) w
  /\ (forall d w1,
        DateParser (VString text) w = (inr d, w1) ->
        run (calcAge input) w =
          after (EvParse (VString text) (inr d)) (run (calcAge (VDate d)) w1)
        /\ outcome (run (calcAge input) w) = Returned (fst (DateDiff (VDate d) w1))
        /\ (isTemporalValue (VDate d) = true ->
            outcome (run (calcAge input) w) =
            outcome (run (calcAge (VObject [("birthday", VDate d)])) w1))).
Proof.
  intros H.
  destruct (prop_inv input "birthday" _ H) as [props [-> Hl]]; [discriminate | ].
  assert (Hj : isPersonJsonRecord (VObject props) = true).
  { unfold isPersonJsonRecord, has_property. rewrite H. simpl. rewrite Hl. reflexivity. }
  assert (Hp : isPerson (VObject props) = false).
  { rewrite isPerson_isPersonRecord. unfold isPersonRecord. rewrite H.
    simpl. apply andb_false_r. }
  assert (Hc : calcAge (VObject props) = (d <- parse (VString text) ;; diffInYears (VDate d))).
  { rewrite calcAge_object, Hp, H. reflexivity. }
  split; [exact Hj | split; [exact Hp | split; [exact Hc | split]]].
  - rewrite Hc. reflexivity.
  - intros d w1 Hparse.
    rewrite Hc, run_parse_diffInYears, Hparse, calcAge_date.
    split; [reflexivity | ].
    rewrite run_diffInYears. split; [reflexivity | ].
    destruct d as [ | ms]; [discriminate | intros _].
    destruct (calcAge_person (VObject [("birthday", VDate (Instant ms))]) ms eq_refl)
      as [_ ->].
    rewrite run_diffInYears. reflexivity.
Qed.

(** ** Failures of the parser *)

(** C7: whenever a call of [parse] made by [calcAge] raises an error,
    that very error is the outcome of [calcAge], and nothing is called
    after the failed [parse]: no branch catches or translates it.  This
    holds in the textual branch and in the last branch alike. *)
Theorem calcAge_propagates_parse_error (input : JsValue) (w : World) :
  (forall value e,
     In (EvParse value (inl e)) (calls (run (calcAge input) w)) ->
     run (calcAge input) w =
     mkRun (Propagated e) [EvParse value (inl e)] (snd (DateParser value w)))
  /\ (forall text e w1,
        input = VString text ->
        DateParser (VString text) w = (inl e, w1) ->
        run (calcAge input) w = mkRun (Propagated e) [EvParse (VString text) (inl e)] w1)
  /\ (forall e w1,
        is_undefined input || is_null input = false ->
        String.eqb (typeof input) "string" = false ->
        instanceof_Date input = false ->
        isPerson input = false ->
        DateParser (prop input "birthday") w = (inl e, w1) ->
        run (calcAge input) w =
        mkRun (Propagated e) [EvParse (prop input "birthday") (inl e)] w1).
Proof.
  split; [ | split].
  - intros value e.
    destruct (calcAge_cases input) as [[_ ->] | [[d ->] | [v ->]]].
    + intros [].
    + rewrite run_diffInYears. intros [H | []]. discriminate H.
    + rewrite run_parse_diffInYears.
      destruct (DateParser v w) as [[e' | d] w1] eqn:E.
      * intros [H | []]. injection H as <- <-. rewrite E. reflexivity.
      * rewrite run_diffInYears. intros [H | [H | []]]; discriminate H.
  - intros text e w1 -> H.
    rewrite calcAge_text, run_parse_diffInYears, H. reflexivity.
  - intros e w1 Habsent Hstring Hdate Hperson H.
    rewrite (calcAge_fallback input Habsent Hstring Hdate Hperson).
    rewrite run_parse_diffInYears, H. reflexivity.
Qed.

End Behaviour.

(** C4: for every textual input, [calcAge] is the program that calls
    [parse] on the input and then [diffInYears] on the parsed date; when
    the parser answers, the run consists of exactly these two calls, in
    this order, and returns what [diffInYears] answered.  With a parser
    for [YYYY-MM-DD] and a whole-year difference taken at 2025-01-01, the
    input "2000-01-01" gives 25. *)
Theorem calcAge_textual_input :
  (forall (World ParseError : Type) (ext : Externals World ParseError)
          (text : string) (w : World),
     calcAge (VString text) = (d <- parse (VString text) ;; diffInYears (VDate d))
     /\ forall d w1,
          DateParser (VString text) w = (inr d, w1) ->
          run (calcAge (VString text)) w =
          mkRun (Returned (fst (DateDiff (VDate d) w1)))
                [EvParse (VString text) (inr d);
                 EvDiff (VDate d) (fst (DateDiff (VDate d) w1))]
                (snd (DateDiff (VDate d) w1)))
  /\ (forall served : nat,
        run (ext := Demo.externals Demo.now_2025_01_01)
            (calcAge (VString "2000-01-01")) served =
        mkRun (Returned 25%float)
              [EvParse (VString "2000-01-01") (inr (Instant 946684800000));
               EvDiff (VDate (Instant 946684800000)) 25%float]
              (S (S served))).
Proof.
  split.
  - intros W E X text w. split; [reflexivity | ].
    intros d w1 H.
    rewrite calcAge_text, run_parse_diffInYears, H, run_diffInYears. reflexivity.
  - intros served. vm_compute. reflexivity.
Qed.

(** ** An input of the declared type that reaches [parse] as a [Date] *)

(** C9: there is an input of the declared parameter type of [calcAge], an
    object of the shape of [Person] whose [birthday] is an Invalid Date,
    that [isPerson] rejects; [calcAge] then takes the last branch and its
    first call hands [parse] a [Date], not a string. *)
Theorem calcAge_passes_invalid_date_to_parse :
  exists input : JsValue,
    in_declared_union input = true
    /\ isPerson_manual input = true
    /\ isPerson input = false
    /\ calcAge input = (d <- parse (VDate InvalidDate) ;; diffInYears (VDate d))
    /\ instanceof_Date (prop input "birthday") = true
    /\ String.eqb (typeof (prop input "birthday")) "string" = false
    /\ forall (World ParseError : Type) (ext : Externals World ParseError) (w : World),
         hd_error (calls (run (calcAge input) w)) =
         Some (EvParse (prop input "birthday") (fst (DateParser (prop input "birthday") w))).
Proof.
  exists (VObject [("birthday", VDate InvalidDate)]).
  repeat (split; [reflexivity | ]).
  intros W E X w. cbn [prop lookup String.eqb Ascii.eqb Bool.eqb].
  change (calcAge (VObject [("birthday", VDate InvalidDate)]))
    with (d <- parse (VDate InvalidDate) ;; diffInYears (VDate d)).
  rewrite run_parse_diffInYears.
  destruct (DateParser (VDate InvalidDate) w) as [[e | d] w1]; reflexivity.
Qed.

(** ** The reference externals at work *)

Lemma demo_externals_stable (now : Z) :
  stable_answers (ext := Demo.externals now).
Proof. split; intros value w w'; reflexivity. Qed.

Lemma calcAge_rejects_absent_input_witness :
  (is_undefined VNull || is_null VNull = true
   /\ run (ext := Demo.externals Demo.now_2025_01_01) (calcAge VNull) 3%nat =
      mkRun (Threw (Error "undefined or null are not allowed")) [] 3%nat)
  /\ (is_undefined VUndefined || is_null VUndefined = true
      /\ run (ext := Demo.externals Demo.now_2025_01_01) (calcAge VUndefined) 3%nat =
         mkRun (Threw (Error "undefined or null are not allowed")) [] 3%nat).
Proof.
  split; (split; [reflexivity | ]).
  - exact (proj2 (proj2 (calcAge_rejects_absent_input
                           (ext := Demo.externals Demo.now_2025_01_01)
                           VNull 3%nat eq_refl))).
  - exact (proj2 (proj2 (calcAge_rejects_absent_input
                           (ext := Demo.externals Demo.now_2025_01_01)
                           VUndefined 3%nat eq_refl))).
Defined.

Lemma calcAge_person_json_witness :
  prop (VObject [("birthday", VString "2000-01-01")]) "birthday" = VString "2000-01-01"
  /\ DateParser (Externals := Demo.externals Demo.now_2025_01_01)
                (VString "2000-01-01") 0%nat = (inr (Instant 946684800000), 1%nat)
  /\ isPerson (VObject [("birthday", VString "2000-01-01")]) = false
  /\ outcome (run (ext := Demo.externals Demo.now_2025_01_01)
                  (calcAge (VObject [("birthday", VString "2000-01-01")])) 0%nat) =
     Returned 25%float.
Proof.
  split; [reflexivity | split; [reflexivity | ]].
  destruct (calcAge_person_json (ext := Demo.externals Demo.now_2025_01_01)
              (VObject [("birthday", VString "2000-01-01")]) "2000-01-01" 0%nat eq_refl)
    as [_ [Hperson [_ [_ Hparsed]]]].
  split; [exact Hperson | ].
  exact (proj1 (proj2 (Hparsed (Instant 946684800000) 1%nat eq_refl))).
Defined.

Lemma calcAge_textual_input_witness :
  DateParser (Externals := Demo.externals Demo.now_2025_01_01)
             (VString "1999-12-31") 0%nat = (inr (Instant 946598400000), 1%nat)
  /\ run (ext := Demo.externals Demo.now_2025_01_01) (calcAge (VString "1999-12-31")) 0%nat =
     mkRun (Returned 25%float)
           [EvParse (VString "1999-12-31") (inr (Instant 946598400000));
            EvDiff (VDate (Instant 946598400000)) 25%float]
           2%nat.
Proof.
  split; [reflexivity | ].
  exact (proj2 (proj1 calcAge_textual_input nat string
                      (Demo.externals Demo.now_2025_01_01) "1999-12-31" 0%nat)
               (Instant 946598400000) 1%nat eq_refl).
Defined.

Lemma calcAge_date_input_witness :
  stable_answers (ext := Demo.externals Demo.now_2025_01_01)
  /\ fst (DateParser (Externals := Demo.externals Demo.now_2025_01_01)
                     (VString "2000-01-01") 0%nat) = inr (Instant 946684800000)
  /\ outcome (run (ext := Demo.externals Demo.now_2025_01_01)
                  (calcAge (VString "2000-01-01")) 0%nat) =
     outcome (run (ext := Demo.externals Demo.now_2025_01_01)
                  (calcAge (VDate (Instant 946684800000))) 7%nat).
Proof.
  split; [apply demo_externals_stable | split; [reflexivity | ]].
  destruct (calcAge_date_input (ext := Demo.externals Demo.now_2025_01_01)
              (Instant 946684800000) 7%nat)
    as [_ [_ [_ [_ Hsame]]]].
  exact (Hsame (demo_externals_stable _) "2000-01-01" 0%nat eq_refl).
Defined.

Lemma calcAge_person_record_witness :
  prop (VObject [("name", VString "Ada"); ("birthday", VDate (Instant 946684800000))])
       "birthday" = VDate (Instant 946684800000)
  /\ isPerson (VObject [("name", VString "Ada");
                        ("birthday", VDate (Instant 946684800000))]) = true
  /\ outcome (run (ext := Demo.externals Demo.now_2025_01_01)
                  (calcAge (VObject [("name", VString "Ada");
                                     ("birthday", VDate (Instant 946684800000))])) 0%nat) =
     Returned 25%float.
Proof.
  split; [reflexivity | ].
  destruct (calcAge_person_record (ext := Demo.externals Demo.now_2025_01_01)
              (VObject [("name", VString "Ada");
                        ("birthday", VDate (Instant 946684800000))])
              946684800000 0%nat eq_refl)
    as [_ [Hperson [_ [_ Hout]]]].
  split; [exact Hperson | exact Hout].
Defined.

Lemma calcAge_propagates_parse_error_witness :
  In (EvParse (VString "yesterday") (inl "Invalid date: yesterday"))
     (calls (run (ext := Demo.externals Demo.now_2025_01_01)
                 (calcAge (VObject [("birthday", VString "yesterday")])) 0%nat))
  /\ run (ext := Demo.externals Demo.now_2025_01_01)
         (calcAge (VObject [("birthday", VString "yesterday")])) 0%nat =
     mkRun (Propagated "Invalid date: yesterday")
           [EvParse (VString "yesterday") (inl "Invalid date: yesterday")] 1%nat.
Proof.
  split; [left; reflexivity | ].
  exact (proj1 (calcAge_propagates_parse_error
                  (ext := Demo.externals Demo.now_2025_01_01)
                  (VObject [("birthday", VString "yesterday")]) 0%nat)
               (VString "yesterday") "Invalid date: yesterday"
               (or_introl eq_refl)).
Defined.

Lemma calcAge_empty_string_is_present_witness :
  outcome (run (ext := Demo.externals Demo.now_2025_01_01) (calcAge (VString "")) 0%nat) =
  Propagated "Invalid date: "
  /\ fst (DateParser (Externals := Demo.externals Demo.now_2025_01_01) (VString "") 0%nat) =
     inl "Invalid date: ".
Proof.
  split; [reflexivity | ].
  destruct (calcAge_empty_string_is_present (ext := Demo.externals Demo.now_2025_01_01) 0%nat)
    as [_ [_ [_ [_ Hraised]]]].
  exact (Hraised "Invalid date: " eq_refl).
Defined.

(** * Further properties of the code *)

(** ** Shared facts *)

Lemma typeof_string_inv (value : JsValue) :
  String.eqb (typeof value) "string" = true -> exists text, value = VString text.
Proof.
  destruct value; try discriminate. intros _. eexists; reflexivity.
Qed.

Lemma instanceof_Date_inv (value : JsValue) :
  instanceof_Date value = true -> exists d, value = VDate d.
Proof.
  destruct value; try discriminate. intros _. eexists; reflexivity.
Qed.

Lemma isPersonJsonRecord_inv (value : JsValue) :
  isPersonJsonRecord value = true ->
  exists props text, value = VObject props /\ prop value "birthday" = VString text.
Proof.
  destruct value as [ | | b | n | z | s | d | items | props]; try discriminate.
  unfold isPersonJsonRecord. intros H.
  apply andb_prop in H. destruct H as [_ H].
  destruct (typeof_string_inv _ H) as [text Htext].
  exists props, text. split; [reflexivity | exact Htext].
Qed.

Lemma isPerson_manual_inv (value : JsValue) :
  isPerson_manual value = true ->
  exists props d, value = VObject props /\ prop value "birthday" = VDate d.
Proof.
  destruct value as [ | | b | n | z | s | d | items | props]; try discriminate.
  unfold isPerson_manual. intros H.
  apply andb_prop in H. destruct H as [_ H].
  destruct (instanceof_Date_inv _ H) as [d Hd].
  exists props, d. split; [reflexivity | exact Hd].
Qed.


Lemma prop_without_property (value : JsValue) (key : string) :
  has_property key value = false -> prop value key = VUndefined.
Proof.
  destruct value as [ | | b | n | z | s | d | items | props]; try reflexivity.
  simpl. destruct (lookup key props); [discriminate | reflexivity].
Qed.

Section Calls.

Context {World ParseError : Type} {ext : Externals World ParseError}.

Lemma calls_of_diffInYears (value : JsValue) (w : World) (ev : Event ParseError) :
  In ev (calls (run (diffInYears value) w)) -> exists n, ev = EvDiff value n.
Proof.
  rewrite run_diffInYears. intros [<- | []]. eexists; reflexivity.
Qed.

Lemma calls_of_parse_diffInYears (value : JsValue) (w : World) (ev : Event ParseError) :
  In ev (calls (run (d <- parse value ;; diffInYears (VDate d)) w)) ->
  (exists answer, ev = EvParse value answer) \/ (exists d n, ev = EvDiff (VDate d) n).
Proof.
  rewrite run_parse_diffInYears.
  destruct (DateParser value w) as [[e | d] w1].
  - intros [<- | []]. left. eexists; reflexivity.
  - rewrite run_diffInYears. intros [<- | [<- | []]].
    + left. eexists; reflexivity.
    + right. do 2 eexists; reflexivity.
Qed.

End Calls.

(** ** [calcAge] of [index.ts]: what reaches the externals *)

(** X6: [isPerson] and [calcAge] look at an object only through its
    [birthday] property: two objects that agree on it, whatever other
    keys they carry and in whatever order, get the same answer from the
    guard and the same program from [calcAge]. *)
Theorem calcAge_object_depends_on_birthday_only (props props' : list (string * JsValue)) :
  lookup "birthday" props = lookup "birthday" props' ->
  isPerson (VObject props) = isPerson (VObject props')
  /\ calcAge (VObject props) = calcAge (VObject props').
Proof.
  intros H.
  assert (Hprop : prop (VObject props) "birthday" = prop (VObject props') "birthday").
  { simpl. rewrite H. reflexivity. }
  assert (Hp : isPerson (VObject props) = isPerson (VObject props')).
  { rewrite !isPerson_isPersonRecord. unfold isPersonRecord, has_property.
    rewrite Hprop, H. reflexivity. }
  split; [exact Hp | ].
  rewrite !calcAge_object, Hp, Hprop. reflexivity.
Qed.

(** X5: a present input that is no string and no [Date] and has no
    [birthday] property (an object lacking the key, a number, a boolean,
    an array) is not a person, and [calcAge] reads the missing property
    as [undefined] and hands that to [parse]. *)
Theorem calcAge_missing_birthday (input : JsValue) :
  is_undefined input || is_null input = false ->
  String.eqb (typeof input) "string" = false ->
  instanceof_Date input = false ->
  has_property "birthday" input = false ->
  isPerson input = false
  /\ calcAge input = (d <- parse VUndefined ;; diffInYears (VDate d)).
Proof.
  intros Habsent Hstring Hdate Hkey.
  assert (Hp : isPerson input = false).
  { rewrite isPerson_isPersonRecord. unfold isPersonRecord.
    rewrite Hkey, andb_false_r. reflexivity. }
  split; [exact Hp | ].
  rewrite (calcAge_fallback input Habsent Hstring Hdate Hp).
  rewrite (prop_without_property input "birthday" Hkey). reflexivity.
Qed.

Section Safety.

Context {World ParseError : Type} {ext : Externals World ParseError}.


(** X3: [calcAge] ends with an error of its own exactly when the input
    is [null] or [undefined], and the error is then the one of the
    guard.  For every present value, falsy ones included, the property
    reads of the later branches never throw. *)
Theorem calcAge_own_error_iff_absent (input : JsValue) (w : World) (e : JsError) :
  outcome (run (calcAge input) w) = Threw e <->
  is_undefined input || is_null input = true
  /\ e = Error "undefined or null are not allowed".
Proof.
  split.
  - destruct (calcAge_cases input) as [[Habsent ->] | [[d ->] | [v ->]]].
    + simpl. intros H. injection H as <-. split; [exact Habsent | reflexivity].
    + rewrite run_diffInYears. discriminate.
    + rewrite run_parse_diffInYears.
      destruct (DateParser v w) as [[e' | d] w1]; [discriminate | ].
      rewrite run_diffInYears. discriminate.
  - intros [Habsent ->]. rewrite (calcAge_absent input Habsent). reflexivity.
Qed.

(** X4: every run of [calcAge] has one of four shapes: the guard's throw
    with no call; one [diffInYears] call whose answer is returned; one
    failed [parse] call whose error is the outcome; or one [parse] call
    followed by one [diffInYears] call on the parsed date, whose answer
    is returned.  So there are at most two external calls, [parse] is
    never called after [diffInYears], and a returned number is always the
    answer of the last call. *)
Theorem calcAge_run_shapes (input : JsValue) (w : World) :
  run (calcAge input) w =
    mkRun (Threw (Error "undefined or null are not allowed")) [] w
  \/ (exists d,
        run (calcAge input) w =
        mkRun (Returned (fst (DateDiff (VDate d) w)))
              [EvDiff (VDate d) (fst (DateDiff (VDate d) w))]
              (snd (DateDiff (VDate d) w)))
  \/ (exists value e w1,
        DateParser value w = (inl e, w1)
        /\ run (calcAge input) w = mkRun (Propagated e) [EvParse value (inl e)] w1)
  \/ (exists value d w1,
        DateParser value w = (inr d, w1)
        /\ run (calcAge input) w =
           mkRun (Returned (fst (DateDiff (VDate d) w1)))
                 [EvParse value (inr d);
                  EvDiff (VDate d) (fst (DateDiff (VDate d) w1))]
                 (snd (DateDiff (VDate d) w1))).
Proof.
  destruct (calcAge_cases input) as [[_ ->] | [[d ->] | [v ->]]].
  - left. reflexivity.
  - right; left. exists d. apply run_diffInYears.
  - right; right. rewrite run_parse_diffInYears.
    destruct (DateParser v w) as [[e | d] w1] eqn:E.
    + left. exists v, e, w1. split; [exact E | reflexivity].
    + right. exists v, d, w1. split; [exact E | ].
      rewrite run_diffInYears. reflexivity.
Qed.

End Safety.

(** ** The article's earlier versions against the final one *)

Lemma truthy_present (input : JsValue) :
  truthy input = true -> is_undefined input || is_null input = false.
Proof.
  destruct input; try reflexivity; discriminate.
Qed.

Lemma calcAge_structured (input : JsValue) :
  is_undefined input || is_null input = false ->
  String.eqb (typeof input) "string" = false ->
  instanceof_Date input = false ->
  calcAge input =
  if isPerson input
  then diffInYears (prop input "birthday")
  else (d <- parse (prop input "birthday") ;; diffInYears (VDate d)).
Proof.
  intros Habsent Hstring Hdate.
  unfold calcAge, assertNonNullable, member.
  rewrite Habsent. simpl. rewrite Hstring, Hdate.
  destruct (isPerson input); reflexivity.
Qed.

Lemma predicate_calcAge_structured (input : JsValue) :
  truthy input = true ->
  String.eqb (typeof input) "string" = false ->
  instanceof_Date input = false ->
  TypePredicate.calcAge input =
  if instanceof_Date (prop input "birthday")
  then diffInYears (prop input "birthday")
  else (d <- parse (prop input "birthday") ;; diffInYears (VDate d)).
Proof.
  intros Htruthy Hstring Hdate.
  unfold TypePredicate.calcAge, TypePredicate.isPerson, member.
  rewrite Htruthy, Hstring, Hdate, (truthy_present input Htruthy). simpl.
  destruct (instanceof_Date (prop input "birthday")); reflexivity.
Qed.

Lemma typeof_birthday_calcAge_structured (input : JsValue) :
  truthy input = true ->
  String.eqb (typeof input) "string" = false ->
  instanceof_Date input = false ->
  TypeofBirthday.calcAge input =
  if String.eqb (typeof (prop input "birthday")) "string"
  then (d <- parse (prop input "birthday") ;; diffInYears (VDate d))
  else diffInYears (prop input "birthday").
Proof.
  intros Htruthy Hstring Hdate.
  unfold TypeofBirthday.calcAge, member.
  rewrite Htruthy, Hstring, Hdate, (truthy_present input Htruthy). simpl.
  destruct (String.eqb (typeof (prop input "birthday")) "string"); reflexivity.
Qed.

(** Where the guard of section 8 is reached, it answers as the guard of
    section 9.1 does. *)
Lemma instanceof_birthday_is_manual (input : JsValue) :
  truthy input = true ->
  String.eqb (typeof input) "string" = false ->
  instanceof_Date (prop input "birthday") = isPerson_manual input.
Proof.
  destruct input as [ | | b | n | z | s | d | items | props];
    try reflexivity; try discriminate.
  intros _ _. unfold isPerson_manual, has_property, prop.
  destruct (lookup "birthday" props); reflexivity.
Qed.

(** The three programs the section-8 version can be. *)
Lemma predicate_calcAge_cases (input : JsValue) :
  (truthy input = false /\ TypePredicate.calcAge input = Ret 0%float)
  \/ (truthy input = true /\ exists d, TypePredicate.calcAge input = diffInYears (VDate d))
  \/ (truthy input = true /\
      exists value, TypePredicate.calcAge input = (d <- parse value ;; diffInYears (VDate d))).
Proof.
  destruct (truthy input) eqn:Htruthy.
  - right.
    destruct (String.eqb (typeof input) "string") eqn:Hstring.
    + right. split; [reflexivity | ]. exists input.
      unfold TypePredicate.calcAge. rewrite Htruthy, Hstring. reflexivity.
    + destruct (instanceof_Date input) eqn:Hdate.
      * left. split; [reflexivity | ].
        destruct (instanceof_Date_inv _ Hdate) as [d ->]. exists d. reflexivity.
      * rewrite (predicate_calcAge_structured input Htruthy Hstring Hdate).
        destruct (instanceof_Date (prop input "birthday")) eqn:Hb.
        -- left. split; [reflexivity | ].
           destruct (instanceof_Date_inv _ Hb) as [d ->]. exists d. reflexivity.
        -- right. split; [reflexivity | ]. eexists; reflexivity.
  - left. split; [reflexivity | ].
    unfold TypePredicate.calcAge. rewrite Htruthy. reflexivity.
Qed.


(** X11: on the inputs of the union without [Person]
    ([Date | null | undefined | string]) the later versions of the
    article change nothing: the versions of sections 4, 5 and 8 are the
    same program there. *)
Theorem early_versions_agree_without_person (input : JsValue) :
  in_date_or_text_union input = true ->
  InstanceOf.calcAge input = Truthiness.calcAge input
  /\ TypeofBirthday.calcAge input = Truthiness.calcAge input
  /\ TypePredicate.calcAge input = Truthiness.calcAge input.
Proof.
  destruct input as [ | | b | n | z | s | d | items | props]; try discriminate; intros _.
  - repeat split; reflexivity.
  - repeat split; reflexivity.
  - unfold InstanceOf.calcAge, TypeofBirthday.calcAge, TypePredicate.calcAge,
      Truthiness.calcAge.
    destruct (truthy (VString s)); repeat split; reflexivity.
  - repeat split; reflexivity.
Qed.

(** X12: on every input of the declared parameter type, testing
    [typeof input.birthday === "string"] and testing the type predicate
    lead to the same program: the two versions of section 8 agree. *)
Theorem typeof_birthday_agrees_with_predicate (input : JsValue) :
  in_declared_union input = true ->
  TypeofBirthday.calcAge input = TypePredicate.calcAge input.
Proof.
  intros Hunion.
  destruct input as [ | | b | n | z | s | d | items | props]; try discriminate Hunion;
    try reflexivity.
  rewrite typeof_birthday_calcAge_structured, predicate_calcAge_structured
    by reflexivity.
  destruct (isPerson_manual (VObject props)) eqn:Hm.
  - destruct (isPerson_manual_inv _ Hm) as [props' [d [_ ->]]]. reflexivity.
  - unfold in_declared_union in Hunion. rewrite Hm in Hunion. simpl in Hunion.
    destruct (isPersonJsonRecord_inv _ Hunion) as [props' [text [_ ->]]]. reflexivity.
Qed.

Section EarlierVersions.

Context {World ParseError : Type} {ext : Externals World ParseError}.

(** X8: on an input of the declared parameter type, the section-8
    version makes no external call exactly when the input is [null],
    [undefined] or the empty string, and it then returns 0. *)
Theorem predicate_calcAge_no_call_iff_falsy (input : JsValue) (w : World) :
  in_declared_union input = true ->
  (calls (run (TypePredicate.calcAge input) w) = [] <->
   input = VNull \/ input = VUndefined \/ input = VString "")
  /\ (calls (run (TypePredicate.calcAge input) w) = [] ->
      run (TypePredicate.calcAge input) w = mkRun (Returned 0%float) [] w).
Proof.
  intros Hunion.
  assert (Hfalsy : truthy input = false <->
                   input = VNull \/ input = VUndefined \/ input = VString "").
  { destruct input as [ | | b | n | z | s | d | items | props]; try discriminate Hunion.
    - split; [right; left; reflexivity | reflexivity].
    - split; [left; reflexivity | reflexivity].
    - simpl. split.
      + intros H. apply negb_false_iff, String.eqb_eq in H. subst s.
        right; right; reflexivity.
      + intros [H | [H | H]]; try discriminate H. injection H as ->. reflexivity.
    - split; [discriminate | intros [H | [H | H]]; discriminate H].
    - split; [discriminate | intros [H | [H | H]]; discriminate H]. }
  rewrite <- Hfalsy.
  destruct (predicate_calcAge_cases input) as [[Ht ->] | [[Ht [d ->]] | [Ht [v ->]]]].
  - split; [split; reflexivity || (intros _; exact Ht) | reflexivity].
  - rewrite run_diffInYears. simpl.
    split; [split; intros H; [discriminate H | congruence] | discriminate].
  - rewrite run_parse_diffInYears.
    destruct (DateParser v w) as [[e | d] w1]; simpl;
      (split; [split; intros H; [discriminate H | congruence] | discriminate]).
Qed.

(** X10: with the hand-written guard, the section-8 version is type-safe
    on the whole declared parameter type, Invalid Dates included: every
    call of [parse] gets a string and every call of [diffInYears] gets a
    [Date]. *)
Theorem predicate_calcAge_type_safe (input : JsValue) (w : World)
        (ev : Event ParseError) :
  in_declared_union input = true ->
  In ev (calls (run (TypePredicate.calcAge input) w)) ->
  match ev with
  | EvParse value _ => exists text, value = VString text
  | EvDiff value _ => exists d, value = VDate d
  end.
Proof.
  intros Hunion.
  assert (Hshape : TypePredicate.calcAge input = Ret 0%float
                   \/ (exists d, TypePredicate.calcAge input = diffInYears (VDate d))
                   \/ (exists text, TypePredicate.calcAge input =
                                    (d <- parse (VString text) ;; diffInYears (VDate d)))).
  { destruct input as [ | | b | n | z | s | d | items | props]; try discriminate Hunion.
    - left; reflexivity.
    - left; reflexivity.
    - unfold TypePredicate.calcAge.
      destruct (truthy (VString s)); [right; right; exists s | left]; reflexivity.
    - right; left. exists d. reflexivity.
    - rewrite predicate_calcAge_structured by reflexivity.
      destruct (isPerson_manual (VObject props)) eqn:Hm.
      + destruct (isPerson_manual_inv _ Hm) as [props' [d [_ ->]]].
        right; left. exists d. reflexivity.
      + unfold in_declared_union in Hunion. rewrite Hm in Hunion. simpl in Hunion.
        destruct (isPersonJsonRecord_inv _ Hunion) as [props' [text [_ ->]]].
        right; right. exists text. reflexivity. }
  destruct Hshape as [-> | [[d ->] | [text ->]]]; intros Hin.
  - destruct Hin.
  - destruct (calls_of_diffInYears _ w _ Hin) as [n ->]. exists d. reflexivity.
  - destruct (calls_of_parse_diffInYears _ w _ Hin) as [[a ->] | [d [n ->]]].
    + exists text. reflexivity.
    + exists d. reflexivity.
Qed.

End EarlierVersions.

(** ** The further properties on the reference externals *)

Lemma calcAge_diffInYears_on_dates_witness :
  In (EvDiff (VDate (Instant 946684800000)) 25%float)
     (calls (run (ext := Demo.externals Demo.now_2025_01_01)
                 (calcAge (VString "2000-01-01")) 0%nat))
  /\ instanceof_Date (VDate (Instant 946684800000)) = true.
Proof.
  split; [right; left; reflexivity | ].
  apply (calcAge_diffInYears_on_dates (ext := Demo.externals Demo.now_2025_01_01)
           (VString "2000-01-01") 0%nat (VDate (Instant 946684800000)) 25%float).
  right; left; reflexivity.
Defined.


Lemma calcAge_missing_birthday_witness :
  has_property "birthday" (VObject [("name", VString "Ada")]) = false
  /\ isPerson (VObject [("name", VString "Ada")]) = false
  /\ calcAge (VObject [("name", VString "Ada")]) =
     (d <- parse VUndefined ;; diffInYears (VDate d)).
Proof.
  split; [reflexivity | ].
  apply (calcAge_missing_birthday (VObject [("name", VString "Ada")]));
    reflexivity.
Defined.

Lemma calcAge_object_depends_on_birthday_only_witness :
  lookup "birthday" [("birthday", VDate (Instant 0)); ("name", VString "Ada")] =
  lookup "birthday" [("id", VBigInt 7); ("birthday", VDate (Instant 0))]
  /\ calcAge (VObject [("birthday", VDate (Instant 0)); ("name", VString "Ada")]) =
     calcAge (VObject [("id", VBigInt 7); ("birthday", VDate (Instant 0))]).
Proof.
  split; [reflexivity | ].
  apply (calcAge_object_depends_on_birthday_only
           [("birthday", VDate (Instant 0)); ("name", VString "Ada")]
           [("id", VBigInt 7); ("birthday", VDate (Instant 0))]).
  reflexivity.
Defined.

Lemma predicate_calcAge_no_call_iff_falsy_witness :
  in_declared_union (VString "") = true
  /\ run (ext := Demo.externals Demo.now_2025_01_01)
         (TypePredicate.calcAge (VString "")) 4%nat =
     mkRun (Returned 0%float) [] 4%nat.
Proof.
  split; [reflexivity | ].
  apply (predicate_calcAge_no_call_iff_falsy (ext := Demo.externals Demo.now_2025_01_01)
           (VString "") 4%nat eq_refl).
  reflexivity.
Defined.

Lemma predicate_calcAge_type_safe_witness :
  in_declared_union (VObject [("birthday", VDate InvalidDate)]) = true
  /\ In (EvDiff (VDate InvalidDate) PrimFloat.nan)
        (calls (run (ext := Demo.externals Demo.now_2025_01_01)
                    (TypePredicate.calcAge (VObject [("birthday", VDate InvalidDate)]))
                    0%nat))
  /\ exists d, VDate InvalidDate = VDate d.
Proof.
  split; [reflexivity | split; [left; reflexivity | ]].
  apply (predicate_calcAge_type_safe (ext := Demo.externals Demo.now_2025_01_01)
           (VObject [("birthday", VDate InvalidDate)]) 0%nat
           (EvDiff (VDate InvalidDate) PrimFloat.nan)).
  - reflexivity.
  - left; reflexivity.
Defined.

Lemma early_versions_agree_without_person_witness :
  in_date_or_text_union (VString "2000-01-01") = true
  /\ TypePredicate.calcAge (VString "2000-01-01") =
     Truthiness.calcAge (VString "2000-01-01").
Proof.
  split; [reflexivity | ].
  apply (early_versions_agree_without_person (VString "2000-01-01")).
  reflexivity.
Defined.

Lemma typeof_birthday_agrees_with_predicate_witness :
  in_declared_union (VObject [("birthday", VString "2000-01-01")]) = true
  /\ TypeofBirthday.calcAge (VObject [("birthday", VString "2000-01-01")]) =
     TypePredicate.calcAge (VObject [("birthday", VString "2000-01-01")]).
Proof.
  split; [reflexivity | ].
  apply (typeof_birthday_agrees_with_predicate
           (VObject [("birthday", VString "2000-01-01")])).
  reflexivity.
Defined.

Example versions_of_section_8_differ_outside_the_union :
  TypeofBirthday.calcAge (VObject [("birthday", VNumber 5%float)]) =
    diffInYears (VNumber 5%float)
  /\ TypePredicate.calcAge (VObject [("birthday", VNumber 5%float)]) =
     (d <- parse (VNumber 5%float) ;; diffInYears (VDate d)).
Proof. split; reflexivity. Qed.

Example predicate_calcAge_on_invalid_date_person :
  run (ext := Demo.externals Demo.now_2025_01_01)
      (TypePredicate.calcAge (VObject [("birthday", VDate InvalidDate)])) 0%nat =
  mkRun (Returned PrimFloat.nan) [EvDiff (VDate InvalidDate) PrimFloat.nan] 1%nat.
Proof. reflexivity. Qed.

Example truthy_on_falsy_values :
  map truthy [VUndefined; VNull; VBoolean false; VNumber 0%float; VNumber (-0)%float;
              VNumber PrimFloat.nan; VBigInt 0; VString ""]
  = [false; false; false; false; false; false; false; false].
Proof. reflexivity. Qed.

Example truthy_on_truthy_values :
  map truthy [VBoolean true; VNumber 25%float; VBigInt 1; VString "0";
              VDate InvalidDate; VArray []; VObject []]
  = [true; true; true; true; true; true; true].
Proof. reflexivity. Qed.

(** ** The two guards, and the two versions that use them *)

(** X7: the zod guard of [index.ts] never accepts a value that the
    hand-written guard of section 9.1 rejects; both reject every value
    without a [birthday] property; and on a plain object the two
    disagree exactly when its [birthday] is an Invalid Date. *)
Theorem guards_disagree_iff_invalid_date :
  (forall value : JsValue, isPerson value = true -> isPerson_manual value = true)
  /\ (forall value : JsValue,
        has_property "birthday" value = false ->
        isPerson value = false /\ isPerson_manual value = false)
  /\ (forall props : list (string * JsValue),
        isPerson (VObject props) <> isPerson_manual (VObject props) <->
        lookup "birthday" props = Some (VDate InvalidDate)).
Proof.
  split; [ | split].
  - intros value H. pose proof (isPerson_vs_manual value) as Hvs.
    rewrite H in Hvs. symmetry in Hvs. apply andb_prop in Hvs. apply Hvs.
  - intros value Hkey. split.
    + rewrite isPerson_isPersonRecord. unfold isPersonRecord.
      rewrite Hkey, andb_false_r. reflexivity.
    + unfold isPerson_manual. rewrite Hkey, andb_false_r. reflexivity.
  - intros props. pose proof (isPerson_vs_manual (VObject props)) as Hvs. split.
    + intros Hne.
      destruct (isPerson_manual (VObject props)) eqn:Hm.
      * destruct (isPerson_manual_inv _ Hm) as [props' [d [_ Hd]]].
        rewrite Hd in Hvs. simpl in Hvs.
        destruct d as [ | ms]; [ | contradiction].
        simpl in Hd. destruct (lookup "birthday" props) as [v | ]; congruence.
      * simpl in Hvs. contradiction.
    + intros Hl. rewrite isPerson_isPersonRecord.
      unfold isPersonRecord, isPerson_manual, has_property, prop. rewrite Hl.
      simpl. discriminate.
Qed.

(** X9: the section-8 version with the hand-written guard against the
    final [calcAge].  On a falsy input they differ: the former returns
    0, the latter throws or, for a present falsy value, calls [parse].
    On a truthy input without a [birthday] property (a string, a [Date],
    a number, an array, an object lacking the key) they are the same
    program.  On a plain object they are the same program exactly when
    its [birthday] is not an Invalid Date. *)
Theorem predicate_calcAge_against_calcAge :
  (forall input : JsValue,
     truthy input = false ->
     TypePredicate.calcAge input = Ret 0%float
     /\ TypePredicate.calcAge input <> calcAge input)
  /\ (forall input : JsValue,
        truthy input = true ->
        has_property "birthday" input = false ->
        TypePredicate.calcAge input = calcAge input)
  /\ (forall props : list (string * JsValue),
        TypePredicate.calcAge (VObject props) = calcAge (VObject props) <->
        lookup "birthday" props <> Some (VDate InvalidDate)).
Proof.
  split; [ | split].
  - intros input Hfalsy.
    assert (H0 : TypePredicate.calcAge input = Ret 0%float).
    { unfold TypePredicate.calcAge. rewrite Hfalsy. reflexivity. }
    split; [exact H0 | ].
    rewrite H0.
    destruct (calcAge_cases input) as [[_ ->] | [[d ->] | [v ->]]]; discriminate.
  - intros input Htruthy Hkey.
    pose proof (truthy_present input Htruthy) as Hpresent.
    destruct (String.eqb (typeof input) "string") eqn:Hstring.
    { destruct (typeof_string_inv _ Hstring) as [s ->].
      unfold TypePredicate.calcAge. rewrite Htruthy. reflexivity. }
    destruct (instanceof_Date input) eqn:Hdate.
    { destruct (instanceof_Date_inv _ Hdate) as [d ->]. reflexivity. }
    rewrite (predicate_calcAge_structured input Htruthy Hstring Hdate).
    rewrite (calcAge_structured input Hpresent Hstring Hdate).
    rewrite (prop_without_property input "birthday" Hkey).
    replace (isPerson input) with false; [reflexivity | ].
    rewrite isPerson_isPersonRecord. unfold isPersonRecord.
    rewrite Hkey, andb_false_r. reflexivity.
  - intros props.
    rewrite predicate_calcAge_structured, calcAge_structured by reflexivity.
    rewrite isPerson_isPersonRecord.
    unfold isPersonRecord, has_property, prop.
    destruct (lookup "birthday" props) as [v | ]; simpl.
    + destruct v as [ | | b | n | z | s | [ | ms] | items | fields]; simpl;
        try (split; [intros _; discriminate | reflexivity]).
      split; [discriminate | intros H; contradiction H; reflexivity].
    + split; [intros _; discriminate | reflexivity].
Qed.

Lemma predicate_calcAge_against_calcAge_witness :
  (truthy (VString "") = false
   /\ TypePredicate.calcAge (VString "") = Ret 0%float)
  /\ (truthy (VArray [VDate (Instant 0)]) = true
      /\ has_property "birthday" (VArray [VDate (Instant 0)]) = false
      /\ TypePredicate.calcAge (VArray [VDate (Instant 0)]) =
         calcAge (VArray [VDate (Instant 0)])).
Proof.
  destruct predicate_calcAge_against_calcAge as [Hfalsy [Hnokey _]].
  split.
  - split; [reflexivity | ].
    exact (proj1 (Hfalsy (VString "") eq_refl)).
  - split; [reflexivity | split; [reflexivity | ]].
    exact (Hnokey (VArray [VDate (Instant 0)]) eq_refl eq_refl).
Defined.

(** ** Determinism *)

(** What [calcAge] asks of the externals: nothing, [diffInYears] on a
    date, or [parse] on the input itself or on its [birthday] followed
    by [diffInYears] on the parsed date. *)
Lemma calcAge_queries (input : JsValue) :
  (is_undefined input || is_null input = true /\
   calcAge input = Throw (Error "undefined or null are not allowed"))
  \/ (exists d, calcAge input = diffInYears (VDate d))
  \/ calcAge input = (d <- parse input ;; diffInYears (VDate d))
  \/ calcAge input = (d <- parse (prop input "birthday") ;; diffInYears (VDate d)).
Proof.
  destruct (is_undefined input || is_null input) eqn:Habsent.
  { left. split; [reflexivity | apply calcAge_absent, Habsent]. }
  right.
  destruct (String.eqb (typeof input) "string") eqn:Hstring.
  { destruct (typeof_string_inv _ Hstring) as [text ->]. right; left. reflexivity. }
  destruct (instanceof_Date input) eqn:Hdate.
  { destruct (instanceof_Date_inv _ Hdate) as [d ->]. left. exists d. reflexivity. }
  rewrite (calcAge_structured input Habsent Hstring Hdate).
  destruct (isPerson input) eqn:Hp.
  - left. rewrite isPerson_isPersonRecord in Hp.
    destruct (isPersonRecord_inv _ Hp) as [props [ms [-> Hl]]].
    exists (Instant ms). simpl. rewrite Hl. reflexivity.
  - right; right. reflexivity.
Qed.

Section Determinism.

Context {World ParseError : Type} {ext : Externals World ParseError}.

(** C8: the result of [calcAge] is determined by the input and by the
    answers to the calls it makes, and by nothing else.  [calcAge] asks
    at most two things of the externals: [parse] on the input itself or
    on its [birthday], and [diffInYears] on a date.  When the answers to
    these do not depend on the externals' own state (the same parser
    behaviour, the same current-time reference), two calls on the same
    input end the same way and make the same calls from any two states,
    in particular the second of two calls in a row; the answers to any
    other request are free to vary.  The externals' state after a call
    is the one these at most two calls leave, so [calcAge] writes
    nothing of its own, and the guard makes no call at all. *)
Theorem calcAge_deterministic (input : JsValue) (w w' : World) :
  (forall s s', fst (DateParser input s) = fst (DateParser input s')) ->
  (forall s s', fst (DateParser (prop input "birthday") s) =
                fst (DateParser (prop input "birthday") s')) ->
  (forall d s s', fst (DateDiff (VDate d) s) = fst (DateDiff (VDate d) s')) ->
  outcome (run (calcAge input) w') = outcome (run (calcAge input) w)
  /\ calls (run (calcAge input) w') = calls (run (calcAge input) w)
  /\ outcome (run (calcAge input) (final (run (calcAge input) w))) =
     outcome (run (calcAge input) w)
  /\ (final (run (calcAge input) w) = w
      \/ (exists d, final (run (calcAge input) w) = snd (DateDiff (VDate d) w))
      \/ (exists value,
            (value = input \/ value = prop input "birthday")
            /\ (final (run (calcAge input) w) = snd (DateParser value w)
                \/ exists d,
                     final (run (calcAge input) w) =
                     snd (DateDiff (VDate d) (snd (DateParser value w))))))
  /\ calls (run (assertNonNullable input) w) = []
  /\ final (run (assertNonNullable input) w) = w.
Proof.
  intros Hinput Hbirthday Hdiff.
  assert (Hparse : forall value,
             (forall s s', fst (DateParser value s) = fst (DateParser value s')) ->
             forall s s',
               outcome (run (d <- parse value ;; diffInYears (VDate d)) s) =
               outcome (run (d <- parse value ;; diffInYears (VDate d)) s')
               /\ calls (run (d <- parse value ;; diffInYears (VDate d)) s) =
                  calls (run (d <- parse value ;; diffInYears (VDate d)) s')).
  { intros value Hvalue s s'. rewrite !run_parse_diffInYears.
    specialize (Hvalue s s').
    destruct (DateParser value s) as [a s1], (DateParser value s') as [a' s1'].
    simpl in Hvalue. subst a'.
    destruct a as [e | d]; [split; reflexivity | ].
    rewrite !run_diffInYears. unfold after. simpl.
    rewrite (Hdiff d s1 s1'). split; reflexivity. }
  assert (Hsame : forall s s',
             outcome (run (calcAge input) s) = outcome (run (calcAge input) s')
             /\ calls (run (calcAge input) s) = calls (run (calcAge input) s')).
  { intros s s'.
    destruct (calcAge_queries input) as [[_ ->] | [[d ->] | [-> | ->]]].
    - split; reflexivity.
    - rewrite !run_diffInYears. simpl. rewrite (Hdiff d s s'). split; reflexivity.
    - apply Hparse, Hinput.
    - apply Hparse, Hbirthday. }
  split; [apply Hsame | ].
  split; [apply Hsame | ].
  split; [apply Hsame | ].
  split.
  - destruct (calcAge_queries input) as [[_ ->] | [[d ->] | [-> | ->]]].
    + left. reflexivity.
    + right; left. exists d. rewrite run_diffInYears. reflexivity.
    + right; right. exists input. split; [left; reflexivity | ].
      rewrite run_parse_diffInYears.
      destruct (DateParser input w) as [[e | d] w1]; simpl.
      * left. reflexivity.
      * right. exists d. destruct (DateDiff (VDate d) w1); reflexivity.
    + right; right. exists (prop input "birthday"). split; [right; reflexivity | ].
      rewrite run_parse_diffInYears.
      destruct (DateParser (prop input "birthday") w) as [[e | d] w1]; simpl.
      * left. reflexivity.
      * right. exists d. destruct (DateDiff (VDate d) w1); reflexivity.
  - unfold assertNonNullable.
    destruct (is_undefined input || is_null input); split; reflexivity.
Qed.

End Determinism.

Lemma calcAge_deterministic_witness :
  (forall s s' : nat,
     fst (DateParser (Externals := Demo.externals Demo.now_2025_01_01)
                     (VObject [("birthday", VString "2000-01-01")]) s) =
     fst (DateParser (Externals := Demo.externals Demo.now_2025_01_01)
                     (VObject [("birthday", VString "2000-01-01")]) s'))
  /\ outcome (run (ext := Demo.externals Demo.now_2025_01_01)
                  (calcAge (VObject [("birthday", VString "2000-01-01")])) 2%nat) =
     outcome (run (ext := Demo.externals Demo.now_2025_01_01)
                  (calcAge (VObject [("birthday", VString "2000-01-01")])) 0%nat)
  /\ final (run (ext := Demo.externals Demo.now_2025_01_01)
                (calcAge (VObject [("birthday", VString "2000-01-01")])) 0%nat) = 2%nat.
Proof.
  split; [intros s s'; reflexivity | ].
  destruct (calcAge_deterministic (ext := Demo.externals Demo.now_2025_01_01)
              (VObject [("birthday", VString "2000-01-01")]) 0%nat 2%nat
              (fun s s' => eq_refl) (fun s s' => eq_refl) (fun d s s' => eq_refl))
    as [Hout _].
  split; [exact Hout | reflexivity].
Defined.
